(** * The authenticated API client, the session flag and the route guards

    A shallow embedding of the front end's authentication core:

    - [src/frontend-react/src/axiosInstance.js]: the axios instance with
      its request interceptor (bearer token) and its response interceptor
      (refresh the access token on a 401 and retry);
    - [src/frontend-react/src/AuthProvider.jsx]: the [isLoggedIn] flag;
    - [src/frontend-react/src/components/Header.jsx]: [handleLogout];
    - [PublicRoute.jsx] and [PrivateRoute.jsx]: the two route guards;
    - the login form's [handleLogin] and the route table of [App];
    - from the feature panels: the timer of [BreathingExercise],
      [formatTime] of [ReminderSettings.jsx] and the message field of
      [ChatInterface.jsx].

    The browser tab is an explicit state ([Tab]): [localStorage], the
    location, the provider's React state, and the list of requests that
    went out on the wire.  The remote service is an arbitrary
    deterministic function of the requests seen so far.  A promise that
    does not settle within the given nesting depth is [Pending]. *)

From Stdlib Require Import Ascii.
From stdpp Require Import gmap strings list fin_maps pretty.

Local Open Scope Z_scope.
Local Open Scope string_scope.

(** ** JavaScript values, as far as the code looks at them *)

Module Js.

(** Values stored in object fields: [undefined], [null], or a string. *)
Inductive Prim : Type :=
| Undefined
| Null
| Str (s : string).

(** A request or response body: [null], or an object with fields.  A
    body that is not an object has no token fields and is represented
    by the object without fields. *)
Inductive Json : Type :=
| JNull
| JObject (fields : gmap string Prim).

(** [String(v)], the conversion [localStorage.setItem] and a template
    literal apply to a value. *)
Definition toString (v : Prim) : string :=
  match v with
  | Undefined => "undefined"
  | Null => "null"
  | Str s => s
  end.

(** [body.key]: [None] is the [TypeError] of reading a property of
    [null]; a missing field reads as [undefined]. *)
Definition getProp (body : Json) (key : string) : option Prim :=
  match body with
  | JNull => None
  | JObject fields => Some (default Undefined (fields !! key))
  end.

(** Truthiness of what [localStorage.getItem] returns: [null] and the
    empty string are falsy, every other string is truthy. *)
Definition truthy (v : option string) : bool :=
  match v with
  | None => false
  | Some s => negb (String.eqb s "")
  end.

(** The value of a variable holding the result of [getItem]. *)
Definition ofItem (v : option string) : Prim :=
  match v with
  | None => Null
  | Some s => Str s
  end.

End Js.

Import Js.

(** ** axios: configs, responses, errors *)

Module Axios.

(** A request config.  [retry] is the custom property the response
    interceptor sets; [false] stands for the property being absent.
    axios keeps the custom properties of a config that is dispatched
    again. *)
Record Config : Type := mkConfig {
  method : string;
  url : string;
  headers : gmap string string;
  data : Json;
  retry : bool;
}.

Record Response : Type := mkResponse {
  status : Z;
  resp_data : Json;
}.

(** An error of a request: the config it was sent with, and the
    response if one was received ([None]: network failure). *)
Record AxiosError : Type := mkError {
  err_config : Config;
  err_response : option Response;
}.

(** What the remote service does with a request. *)
Inductive Reply : Type :=
| Replied (st : Z) (body : Json)
| NoReply.

(** How a promise returned by the client settles. *)
Inductive Outcome : Type :=
| Fulfilled (response : Response)
| Rejected (error : AxiosError).

Inductive Result : Type :=
| Settled (o : Outcome)
| Pending.

Definition set_headers (h : gmap string string) (c : Config) : Config :=
  mkConfig (method c) (url c) h (data c) (retry c).

Definition set_retry (b : bool) (c : Config) : Config :=
  mkConfig (method c) (url c) (headers c) (data c) b.

Definition set_err_config (c : Config) (e : AxiosError) : AxiosError :=
  mkError c (err_response e).

(** axios' default [validateStatus]: 2xx fulfils, the rest rejects. *)
Definition validateStatus (st : Z) : bool :=
  ((200 <=? st) && (st <? 300))%Z.

(** The promise of one dispatch. *)
Definition settle (config : Config) (r : Reply) : Outcome :=
  match r with
  | Replied st body =>
      let response := mkResponse st body in
      if validateStatus st then Fulfilled response
      else Rejected (mkError config (Some response))
  | NoReply => Rejected (mkError config None)
  end.

(** The three classes of replies the client tells apart: a reply is a
    failure when its promise rejects, and an authorization failure
    when its status is 401. *)
Definition responseOf (r : Reply) : option Response :=
  match r with
  | Replied st body => Some (mkResponse st body)
  | NoReply => None
  end.

Definition failure (r : Reply) : bool :=
  match r with
  | Replied st _ => negb (validateStatus st)
  | NoReply => true
  end.

Definition authorizationFailure (r : Reply) : bool :=
  match r with
  | Replied st _ => (st =? 401)%Z
  | NoReply => false
  end.

(** The instance defaults of [axios.create]: a config's own headers win
    over the default [Content-Type]. *)
Definition defaultHeaders : gmap string string :=
  {[ "Content-Type" := "application/json" ]}.

Definition mergeConfig (config : Config) : Config :=
  set_headers (headers config ∪ defaultHeaders) config.

(** [axiosInstance.post(url, data)] and [axiosInstance.get(url)] as
    configs. *)
Definition post (u : string) (d : Json) : Config :=
  mkConfig "post" u ∅ d false.

Definition get (u : string) : Config :=
  mkConfig "get" u ∅ JNull false.

End Axios.

Import Axios.

(** ** The browser tab *)

(** The remote service: its reply to a request may depend on the
    requests it received before (oldest first). *)
Definition Server : Type := list Config → Config → Reply.

(** The tab: [localStorage]; the current path, written by
    [window.location.href = ...] and by the router's [navigate]; the
    [isLoggedIn] state of the mounted [AuthProvider]; and the requests
    sent so far. *)
Record Tab : Type := mkTab {
  localStorage : gmap string string;
  location : string;
  isLoggedIn : bool;
  network : list Config;
}.

Definition set_localStorage (ls : gmap string string) (t : Tab) : Tab :=
  mkTab ls (location t) (isLoggedIn t) (network t).

Definition set_location (href : string) (t : Tab) : Tab :=
  mkTab (localStorage t) href (isLoggedIn t) (network t).

Definition set_isLoggedIn (b : bool) (t : Tab) : Tab :=
  mkTab (localStorage t) (location t) b (network t).

Definition sent (c : Config) (t : Tab) : Tab :=
  mkTab (localStorage t) (location t) (isLoggedIn t) (network t ++ [c]).

Definition getItem (key : string) (t : Tab) : option string :=
  localStorage t !! key.

Definition setItem (key value : string) (t : Tab) : Tab :=
  set_localStorage (<[key := value]> (localStorage t)) t.

Definition removeItem (key : string) (t : Tab) : Tab :=
  set_localStorage (delete key (localStorage t)) t.

(** ** axiosInstance.js *)

Module AxiosInstance.

Definition Client : Type := Config → Tab → Result * Tab.

(** Request interceptor (lines 24-31): attach the stored access token
    when it is truthy. *)
Definition requestInterceptor (t : Tab) (config : Config) : Config :=
  let accessToken := getItem "accessToken" t in
  if truthy accessToken
  then set_headers
         (<["Authorization" := "Bearer " +:+ toString (ofItem accessToken)]>
            (headers config)) config
  else config.

(** The config as it leaves the tab: defaults merged, then the request
    interceptor. *)
Definition outgoing (t : Tab) (config : Config) : Config :=
  requestInterceptor t (mergeConfig config).

(** The refresh call of lines 57-59. *)
Definition refreshCall (refreshToken : option string) : Config :=
  post "/token/refresh/" (JObject {[ "refresh" := ofItem refreshToken ]}).

(** Line 66: the original request, re-armed with the new token. *)
Definition retryOf (originalRequest : Config) (newAccessToken : Prim) : Config :=
  set_headers
    (<["Authorization" := "Bearer " +:+ toString newAccessToken]>
       (headers originalRequest)) originalRequest.

(** The [catch] block (lines 68-73). *)
Definition refreshFailed (t : Tab) : Tab :=
  set_location "/login"
    (removeItem "refreshToken" (removeItem "accessToken" t)).

(** Response interceptor, error handler (lines 47-77).
    [axiosInstance] is the client the handler calls back into.
    [originalRequest] is [error.config] itself, so setting [retry] on
    it also changes the error that is rejected on line 76.  A
    [return] of the retry's promise inside [try] is not awaited, so
    the retry's rejection does not reach the [catch] block. *)
Definition responseError (axiosInstance : Client)
    (error : AxiosError) (t : Tab) : Result * Tab :=
  match err_response error with
  | Some response =>
      if (status response =? 401)%Z && negb (retry (err_config error))
      then
        let originalRequest := set_retry true (err_config error) in
        let error := set_err_config originalRequest error in
        let refreshToken := getItem "refreshToken" t in
        match axiosInstance (refreshCall refreshToken) t with
        | (Pending, t) => (Pending, t)
        | (Settled (Fulfilled response), t) =>
            match getProp (resp_data response) "access" with
            | Some newAccessToken =>
                let t := setItem "accessToken" (toString newAccessToken) t in
                let originalRequest := retryOf originalRequest newAccessToken in
                axiosInstance originalRequest t
            | None => (Settled (Rejected error), refreshFailed t)
            end
        | (Settled (Rejected refreshError), t) =>
            (Settled (Rejected error), refreshFailed t)
        end
      else (Settled (Rejected error), t)
  | None => (Settled (Rejected error), t)
  end.

(** One call of the client: request interceptor, dispatch, response
    interceptor.  [fuel] bounds how deeply calls of the client from its
    own response interceptor may nest; a call that needs more is
    [Pending]. *)
Fixpoint axiosInstance (fuel : nat) (server : Server)
    (config : Config) (t : Tab) {struct fuel} : Result * Tab :=
  match fuel with
  | O => (Pending, t)
  | S fuel =>
      let config := outgoing t config in
      let reply := server (network t) config in
      let t := sent config t in
      match settle config reply with
      | Fulfilled response => (Settled (Fulfilled response), t)
      | Rejected error => responseError (axiosInstance fuel server) error t
      end
  end.

(** A client that leaves the provider's flag alone and only adds to
    the requests sent. *)
Definition frames (client : Client) : Prop :=
  ∀ config t,
    isLoggedIn (snd (client config t)) = isLoggedIn t
    ∧ ∃ rest, network (snd (client config t)) = (network t ++ rest)%list.

End AxiosInstance.

Import AxiosInstance.

(** ** AuthProvider.jsx *)

Module AuthProvider.

(** The [useState] initialiser (lines 21-26).  [window] is the tab the
    provider mounts in, or [None] where there is no [window]. *)
Definition initialState (window : option Tab) : bool :=
  match window with
  | Some t => truthy (getItem "accessToken" t)
  | None => false
  end.

(** Mounting the provider in a tab: what a page load does. *)
Definition mount (t : Tab) : Tab :=
  set_isLoggedIn (initialState (Some t)) t.

(** The state setter handed out through the context. *)
Definition setIsLoggedIn (b : bool) (t : Tab) : Tab :=
  set_isLoggedIn b t.

(** The listener of the [storage] event (lines 30-32). *)
Definition handleStorageChange (t : Tab) : Tab :=
  setIsLoggedIn (truthy (getItem "accessToken" t)) t.

End AuthProvider.

(** ** Header.jsx and the login form *)

Module Header.

(** [navigate(path)] of the router. *)
Definition navigate (path : string) (t : Tab) : Tab :=
  set_location path t.

(** [handleLogout] (lines 15-20). *)
Definition handleLogout (t : Tab) : Tab :=
  let t := removeItem "accessToken" t in
  let t := removeItem "refreshToken" t in
  let t := AuthProvider.setIsLoggedIn false t in
  navigate "/login" t.

End Header.

(** ** The login form *)

Module Login.

(** [handleLogin]: post the credentials; on success write both tokens,
    set the flag and go to the dashboard; any failure (a rejected
    request, or a body without fields to read) leaves the tab as the
    request left it. *)
Definition handleLogin (fuel : nat) (server : Server)
    (username password : string) (t : Tab) : Tab :=
  let userData :=
    JObject (<["username" := Str username]> {[ "password" := Str password ]}) in
  match axiosInstance fuel server (post "/token/" userData) t with
  | (Settled (Fulfilled response), t) =>
      match getProp (resp_data response) "access",
            getProp (resp_data response) "refresh" with
      | Some access, Some refresh =>
          let t := setItem "accessToken" (toString access) t in
          let t := setItem "refreshToken" (toString refresh) t in
          let t := AuthProvider.setIsLoggedIn true t in
          Header.navigate "/dashboard" t
      | _, _ => t
      end
  | (_, t) => t
  end.

End Login.

(** ** PublicRoute.jsx and PrivateRoute.jsx *)

Module Routes.

(** What a guard returns: its children, or a [<Navigate to=...>]. *)
Inductive Element (A : Type) : Type :=
| Children (children : A)
| Navigate (to : string).
Arguments Children {A} children.
Arguments Navigate {A} to.

Definition PublicRoute {A : Type} (t : Tab) (children : A) : Element A :=
  if negb (isLoggedIn t) then Children children else Navigate "/dashboard".

Definition PrivateRoute {A : Type} (t : Tab) (children : A) : Element A :=
  if isLoggedIn t then Children children else Navigate "/login".

End Routes.

(** ** Scenarios *)

Module Scenario.

(** A tab that holds the tokens ["A1"] and ["R1"] and a user name. *)
Definition tab0 : Tab :=
  AuthProvider.mount
    (mkTab (<["accessToken" := "A1"]>
              (<["refreshToken" := "R1"]> {[ "username" := "sam" ]}))
           "/dashboard" false []).

Definition history : Config := get "/history/".

Definition isRefresh (c : Config) : bool :=
  String.eqb (url c) "/token/refresh/".

(** The service of the refresh scenario: the first request is refused
    with a 401, the refresh call is answered with a new access token,
    everything after that succeeds. *)
Definition refreshing (newAccess : string) : Server :=
  fun seen c =>
    match seen with
    | [] => Replied 401 (JObject ∅)
    | _ =>
        if isRefresh c
        then Replied 200 (JObject {[ "access" := Str newAccess ]})
        else Replied 200 (JObject ∅)
    end.

(** A service that refuses everything but the refresh call, which it
    answers with a new token, so that the retry is refused again. *)
Definition refusing (newAccess : string) : Server :=
  fun seen c =>
    if isRefresh c
    then Replied 200 (JObject {[ "access" := Str newAccess ]})
    else Replied 401 (JObject ∅).

(** A service whose refresh endpoint is down (500). *)
Definition refreshDown : Server :=
  fun seen c =>
    if isRefresh c then Replied 500 JNull else Replied 401 (JObject ∅).

(** A service that accepts the credentials. *)
Definition welcoming : Server :=
  fun seen c =>
    Replied 200
      (JObject (<["access" := Str "A1"]> {[ "refresh" := Str "R1" ]})).

(** A service that answers every request, the refresh call included,
    with a 401: what the remote service does once the refresh token has
    expired as well. *)
Definition expired : Server :=
  fun seen c => Replied 401 (JObject ∅).

(** A service that answers with a 401 until it has seen [n] requests,
    and with a 500 from then on. *)
Definition expiredUntil (n : nat) : Server :=
  fun seen c =>
    if (length seen <? n)%nat then Replied 401 (JObject ∅)
    else Replied 500 JNull.

End Scenario.

(** ** App.jsx: the route table *)

Module App.

Inductive Page : Type :=
| MainPage
| RegisterPage
| LoginPage
| DashboardPage.

(** The element of the route written with [path], for the four paths
    of the table; [None]: the table has no route written with that
    path. *)
Definition routeElement (t : Tab) (path : string)
    : option (Routes.Element Page) :=
  if String.eqb path "/" then Some (Routes.Children MainPage)
  else if String.eqb path "/register" then Some (Routes.PublicRoute t RegisterPage)
  else if String.eqb path "/login" then Some (Routes.PublicRoute t LoginPage)
  else if String.eqb path "/dashboard" then Some (Routes.PrivateRoute t DashboardPage)
  else None.

(** Rendering the routes at the tab's location.  A [<Navigate>] moves
    the location and the routes render again; [fuel] bounds the number
    of renders.  The result is the page shown, if any. *)
Fixpoint render (fuel : nat) (t : Tab) {struct fuel} : option Page * Tab :=
  match fuel with
  | O => (None, t)
  | S fuel =>
      match routeElement t (location t) with
      | Some (Routes.Children page) => (Some page, t)
      | Some (Routes.Navigate to) => render fuel (Header.navigate to t)
      | None => (None, t)
      end
  end.

End App.

(** ** BreathingExercise: the timer of the breathing exercise *)

Module BreathingExercise.

Inductive Phase : Type :=
| Inhale
| Hold
| Exhale.

Inductive PatternKey : Type :=
| P478
| Box
| Deep.

Record Pattern : Type := mkPattern {
  inhale : nat;
  hold : nat;
  exhale : nat;
  hold2 : option nat;
  name : string;
}.

Definition patterns (key : PatternKey) : Pattern :=
  match key with
  | P478 => mkPattern 4 7 8 None "4-7-8 Breathing"
  | Box => mkPattern 4 4 4 (Some 4%nat) "Box Breathing"
  | Deep => mkPattern 5 0 5 None "Deep Breathing"
  end.

(** The component's state. *)
Record State : Type := mkState {
  isActive : bool;
  phase : Phase;
  timeLeft : nat;
  pattern : PatternKey;
  sessionCount : nat;
}.

Definition initialState : State := mkState false Inhale 4 P478 0.

Definition currentPattern (st : State) : Pattern := patterns (pattern st).

(** What the effect does after a render: arm a one-second timeout that
    then writes the state, write the state at once, or nothing. *)
Inductive Effect : Type :=
| Timeout (st : State)
| Update (st : State)
| Idle.

Definition effect (st : State) : Effect :=
  if isActive st && (0 <? timeLeft st)%nat then
    Timeout (mkState (isActive st) (phase st) (timeLeft st - 1)
               (pattern st) (sessionCount st))
  else if isActive st && (timeLeft st =? 0)%nat then
    match phase st with
    | Inhale =>
        Update (mkState (isActive st) Hold (hold (currentPattern st))
                  (pattern st) (sessionCount st))
    | Hold =>
        Update (mkState (isActive st) Exhale (exhale (currentPattern st))
                  (pattern st) (sessionCount st))
    | Exhale =>
        Update (mkState (isActive st) Inhale (inhale (currentPattern st))
                  (pattern st) (sessionCount st + 1))
    end
  else Idle.

(** The component left alone for [renders] renders: the seconds that
    went by in timeouts, and the state reached. *)
Fixpoint run (renders : nat) (st : State) {struct renders} : nat * State :=
  match renders with
  | O => (O, st)
  | S renders =>
      match effect st with
      | Timeout st' => let (seconds, st'') := run renders st' in (S seconds, st'')
      | Update st' => run renders st'
      | Idle => (O, st)
      end
  end.

Definition handleStart (st : State) : State :=
  mkState true Inhale (inhale (currentPattern st)) (pattern st) 0.

Definition handleStop (st : State) : State :=
  mkState false Inhale (inhale (currentPattern st)) (pattern st) (sessionCount st).

(** A click on a pattern button, which is disabled while the exercise
    runs: [setPattern(key)] and then [handleStop()], the [handleStop] of
    the render the button belongs to, whose [currentPattern] is the
    pattern selected before the click. *)
Definition selectPattern (key : PatternKey) (st : State) : State :=
  if isActive st then st
  else
    let stopped := handleStop st in
    mkState (isActive stopped) (phase stopped) (timeLeft stopped)
      key (sessionCount stopped).

End BreathingExercise.

(** ** ReminderSettings.jsx: the time shown for a reminder *)

Module ReminderSettings.

(** [s.split(':')]. *)
Fixpoint split (s : string) : list string :=
  match s with
  | EmptyString => [""]
  | String c s' =>
      if Ascii.eqb c ":"%char then "" :: split s'
      else
        match split s' with
        | field :: fields => String c field :: fields
        | [] => [String c ""]
        end
  end.

Definition digit (c : ascii) : option N :=
  let n := N_of_ascii c in
  if ((48 <=? n) && (n <=? 57))%N then Some (n - 48)%N else None.

Fixpoint numeral (s : string) (acc : N) : option N :=
  match s with
  | EmptyString => Some acc
  | String c s' =>
      match digit c with
      | Some d => numeral s' (10 * acc + d)%N
      | None => None
      end
  end.

(** The number a string converts to, for a string of at most fifteen
    decimal digits (the empty string converts to 0).  [None]: the
    string is not of that form, and its conversion is not modelled. *)
Definition Number (s : string) : option N :=
  if (String.length s <=? 15)%nat then numeral s 0%N else None.

(** [formatTime] (lines 106-112).  [None] only where [Number] is. *)
Definition formatTime (timeString : string) : option string :=
  if String.eqb timeString "" then Some ""
  else
    match split timeString with
    | hours :: fields =>
        match Number hours with
        | Some h =>
            let minutes :=
              match fields with
              | minutes :: _ => minutes
              | [] => "undefined"
              end in
            let hour12 := if (h mod 12 =? 0)%N then 12%N else (h mod 12)%N in
            let ampm := if (12 <=? h)%N then "PM" else "AM" in
            Some (pretty hour12 +:+ ":" +:+ minutes +:+ " " +:+ ampm)
        | None => None
        end
    | [] => None
    end.

(** The two digits a time input writes for an hour or a minute. *)
Definition twoDigits (n : N) : string :=
  String (ascii_of_N (48 + n / 10))
    (String (ascii_of_N (48 + n mod 10)) "").

End ReminderSettings.

(** ** ChatInterface.jsx: the message field *)

Module ChatInterface.

Section Input.

(** The code units of a JavaScript string; a text is a list of them. *)
Variable CodeUnit : Type.

Record Field : Type := mkField {
  inputText : list CodeUnit;
  charCount : nat;
  error : option string;
}.

Definition MAX_CHAR : nat := 1000.

Definition initialField : Field := mkField [] 0 None.

(** [handleInputChange] (lines 32-39): a text that fits replaces the
    field's and clears the error; a longer one is dropped. *)
Definition handleInputChange (text : list CodeUnit) (field : Field) : Field :=
  if (length text <=? MAX_CHAR)%nat
  then mkField text (length text) None
  else field.

End Input.

End ChatInterface.

(** * Properties *)

(** ** Basic facts about the tab and about one dispatch *)

Section TabFacts.

Context (t : Tab) (c : Config).

Lemma network_sent : network (sent c t) = (network t ++ [c])%list.
Proof. reflexivity. Qed.

Lemma localStorage_sent : localStorage (sent c t) = localStorage t.
Proof. reflexivity. Qed.

Lemma getItem_sent key : getItem key (sent c t) = getItem key t.
Proof. reflexivity. Qed.

Lemma getItem_setItem key v : getItem key (setItem key v t) = Some v.
Proof. unfold getItem, setItem; simpl. apply lookup_insert_eq. Qed.

Lemma getItem_setItem_ne key key' v :
  key ≠ key' → getItem key' (setItem key v t) = getItem key' t.
Proof. intros Hne. unfold getItem, setItem; simpl. by apply lookup_insert_ne. Qed.

Lemma getItem_removeItem key : getItem key (removeItem key t) = None.
Proof. unfold getItem, removeItem; simpl. apply lookup_delete_eq. Qed.

Lemma getItem_removeItem_ne key key' :
  key ≠ key' → getItem key' (removeItem key t) = getItem key' t.
Proof. intros Hne. unfold getItem, removeItem; simpl. by apply lookup_delete_ne. Qed.

End TabFacts.

Lemma truthy_Some (v : option string) :
  truthy v = true ↔ ∃ tok, v = Some tok ∧ tok ≠ "".
Proof.
  destruct v as [s|]; simpl.
  - rewrite negb_true_iff. split.
    + intros H. exists s. split; [done|]. intros ->. by rewrite String.eqb_refl in H.
    + intros (tok & [= ->] & Hne). by apply String.eqb_neq.
  - split; [done|]. by intros (tok & ? & _).
Qed.

Section Dispatch.

Context (server : Server).

Lemma retry_outgoing t config : retry (outgoing t config) = retry config.
Proof. unfold outgoing, requestInterceptor. by destruct (truthy _). Qed.

Lemma url_outgoing t config : url (outgoing t config) = url config.
Proof. unfold outgoing, requestInterceptor. by destruct (truthy _). Qed.

Lemma method_outgoing t config : method (outgoing t config) = method config.
Proof. unfold outgoing, requestInterceptor. by destruct (truthy _). Qed.

Lemma data_outgoing t config : data (outgoing t config) = data config.
Proof. unfold outgoing, requestInterceptor. by destruct (truthy _). Qed.

Lemma settle_failure c r :
  failure r = true → settle c r = Rejected (mkError c (responseOf r)).
Proof.
  destruct r as [st body|]; simpl; [|done].
  rewrite negb_true_iff. by intros ->.
Qed.

Lemma authorizationFailure_failure r :
  authorizationFailure r = true → failure r = true.
Proof.
  destruct r as [st body|]; simpl; [|done].
  intros ->%Z.eqb_eq. reflexivity.
Qed.

Lemma settle_success c st body :
  validateStatus st = true →
  settle c (Replied st body) = Fulfilled (mkResponse st body).
Proof. simpl. by intros ->. Qed.

(** The response interceptor hands an error on untouched when it has no
    response, when its status is not 401, or when its config is
    already marked. *)
Lemma responseError_passes client c r t :
  authorizationFailure r = false ∨ retry c = true →
  responseError client (mkError c (responseOf r)) t
  = (Settled (Rejected (mkError c (responseOf r))), t).
Proof.
  intros H. unfold responseError.
  destruct r as [st body|]; simpl in *; [|done].
  destruct H as [-> | ->]; [done|].
  by rewrite andb_false_r.
Qed.

(** Such a request is dispatched once and its outcome is the outcome
    of that dispatch. *)
Lemma axiosInstance_terminal fuel config t :
  let c := outgoing t config in
  let r := server (network t) c in
  authorizationFailure r = false ∨ retry config = true →
  axiosInstance (S fuel) server config t = (Settled (settle c r), sent c t).
Proof.
  intros c r H. simpl. fold c. fold r.
  destruct (failure r) eqn:Hf.
  - rewrite (settle_failure _ _ Hf).
    apply responseError_passes.
    destruct H as [H|H]; [by left|right]. unfold c. by rewrite retry_outgoing.
  - destruct r as [st body|]; simpl in *; [|done].
    apply negb_false_iff in Hf. by rewrite Hf.
Qed.

(** The first authorization failure of a request that is not marked
    starts the recovery: the refresh call is made in the tab as the
    request left it. *)
Lemma axiosInstance_recovers fuel config t :
  let c := outgoing t config in
  let r := server (network t) c in
  authorizationFailure r = true → retry config = false →
  axiosInstance (S fuel) server config t
  = let error := mkError (set_retry true c) (responseOf r) in
    match axiosInstance fuel server
            (refreshCall (getItem "refreshToken" t)) (sent c t) with
    | (Pending, t') => (Pending, t')
    | (Settled (Fulfilled response), t') =>
        match getProp (resp_data response) "access" with
        | Some newAccessToken =>
            axiosInstance fuel server
              (retryOf (set_retry true c) newAccessToken)
              (setItem "accessToken" (toString newAccessToken) t')
        | None => (Settled (Rejected error), refreshFailed t')
        end
    | (Settled (Rejected _), t') => (Settled (Rejected error), refreshFailed t')
    end.
Proof.
  intros c r Ha Hr. simpl. fold c. fold r.
  rewrite (settle_failure _ _ (authorizationFailure_failure _ Ha)).
  unfold responseError.
  destruct r as [st body|]; simpl in *; [|done].
  rewrite Ha. unfold c at 1. rewrite retry_outgoing, Hr. simpl.
  reflexivity.
Qed.

End Dispatch.

(** A successful login writes both tokens, then sets the flag and goes
    to the dashboard. *)
Example login_writes_tokens :
  let t := Login.handleLogin 1 Scenario.welcoming "sam" "secret"
             (mkTab ∅ "/login" false []) in
  getItem "accessToken" t = Some "A1"
  ∧ getItem "refreshToken" t = Some "R1"
  ∧ isLoggedIn t = true
  ∧ location t = "/dashboard"
  ∧ map url (network t) = ["/token/"].
Proof. vm_compute. repeat split; reflexivity. Qed.

(** ** The recovery path when the refresh call is answered *)

Section Recovery.

Context (server : Server) (config : Config) (t : Tab).

Lemma success_not_authorizationFailure st body :
  validateStatus st = true → authorizationFailure (Replied st body) = false.
Proof.
  unfold validateStatus. simpl. intros [_ H]%andb_true_iff.
  apply Z.ltb_lt in H. apply Z.eqb_neq. lia.
Qed.

(** A first 401 followed by a refresh call that is answered with a 2xx
    status and an object: the new token is stored and the client is
    called once more, on the marked request. *)
Lemma recovery_redispatch fuel b1 st2 o :
  let c1 := outgoing t config in
  let t1 := sent c1 t in
  let rc := outgoing t1 (refreshCall (getItem "refreshToken" t)) in
  let newAccessToken := default Undefined (o !! "access") in
  retry config = false →
  server (network t) c1 = Replied 401 b1 →
  server (network t1) rc = Replied st2 (JObject o) →
  validateStatus st2 = true →
  axiosInstance (S (S fuel)) server config t
  = axiosInstance (S fuel) server
      (retryOf (set_retry true c1) newAccessToken)
      (setItem "accessToken" (toString newAccessToken) (sent rc t1)).
Proof.
  intros c1 t1 rc new Hr H1 H2 Hok.
  rewrite axiosInstance_recovers; fold c1; [|by rewrite H1|done].
  fold t1. cbv zeta.
  rewrite axiosInstance_terminal; fold rc.
  - rewrite H2, (settle_success _ _ _ Hok). reflexivity.
  - left. rewrite H2. by apply success_not_authorizationFailure.
Qed.

End Recovery.

(** C7: a failure that is not an authorization failure (any status but
    401 outside 2xx, or no response at all) is handed back as it is: the
    request went out once, no refresh call and no retry followed, and
    the store, the location and the flag are as before. *)
Theorem other_failure_returned_unchanged
    (fuel : nat) (server : Server) (config : Config) (t : Tab) :
  let c := outgoing t config in
  let r := server (network t) c in
  failure r = true → authorizationFailure r = false →
  let result := axiosInstance (S fuel) server config t in
  fst result = Settled (Rejected (mkError c (responseOf r)))
  ∧ network (snd result) = (network t ++ [c])%list
  ∧ localStorage (snd result) = localStorage t
  ∧ location (snd result) = location t
  ∧ isLoggedIn (snd result) = isLoggedIn t.
Proof.
  intros c r Hf Ha result. unfold result.
  rewrite axiosInstance_terminal by (by left).
  fold c r. by rewrite (settle_failure _ _ Hf).
Qed.

Lemma other_failure_returned_unchanged_witness :
  let c := outgoing Scenario.tab0 Scenario.history in
  let result := axiosInstance 1 (Scenario.expiredUntil 0) Scenario.history Scenario.tab0 in
  fst result = Settled (Rejected (mkError c (Some (mkResponse 500 JNull))))
  ∧ network (snd result) = [c]
  ∧ localStorage (snd result) = localStorage Scenario.tab0
  ∧ location (snd result) = "/dashboard"
  ∧ isLoggedIn (snd result) = true.
Proof.
  apply (other_failure_returned_unchanged 0 (Scenario.expiredUntil 0)
           Scenario.history Scenario.tab0); reflexivity.
Defined.

(** C1: a request that is already marked as retried and is answered
    with an authorization failure is not recovered again: it went out
    once, no refresh call and no further dispatch follow, the store is
    not touched, and the promise rejects with that very failure. *)
Theorem marked_request_is_terminal
    (fuel : nat) (server : Server) (config : Config) (t : Tab) (body : Json) :
  let c := outgoing t config in
  retry config = true →
  server (network t) c = Replied 401 body →
  let result := axiosInstance (S fuel) server config t in
  fst result = Settled (Rejected (mkError c (Some (mkResponse 401 body))))
  ∧ network (snd result) = (network t ++ [c])%list
  ∧ localStorage (snd result) = localStorage t
  ∧ location (snd result) = location t.
Proof.
  intros c Hr H result. unfold result.
  rewrite axiosInstance_terminal by (by right).
  fold c. rewrite H. done.
Qed.

(** The marked request of the scenario in which the retry is refused:
    the request as line 66 re-arms it, in the tab as the refresh left
    it. *)
Lemma marked_request_is_terminal_witness :
  let c1 := outgoing Scenario.tab0 Scenario.history in
  let t1 := sent c1 Scenario.tab0 in
  let rc := outgoing t1 (refreshCall (Some "R1")) in
  let t2 := setItem "accessToken" "A2" (sent rc t1) in
  let marked := retryOf (set_retry true c1) (Str "A2") in
  let c3 := outgoing t2 marked in
  let result := axiosInstance 1 (Scenario.refusing "A2") marked t2 in
  retry marked = true
  ∧ Scenario.refusing "A2" (network t2) c3 = Replied 401 (JObject ∅)
  ∧ fst result = Settled (Rejected (mkError c3 (Some (mkResponse 401 (JObject ∅)))))
  ∧ network (snd result) = [c1; rc; c3]
  ∧ localStorage (snd result) = localStorage t2
  ∧ location (snd result) = "/dashboard".
Proof.
  intros c1 t1 rc t2 marked c3 result.
  split; [reflexivity|]. split; [reflexivity|].
  apply (marked_request_is_terminal 0 (Scenario.refusing "A2") marked t2 (JObject ∅));
    reflexivity.
Defined.

(** The whole of it: first 401, refresh answered, retry refused with a
    second 401.  Three requests went out, one of them a refresh call,
    and the second failure is the outcome. *)
Corollary second_authorization_failure_is_final
    (fuel : nat) (server : Server) (config : Config) (t : Tab)
    (b1 b3 : Json) (st2 : Z) (o : gmap string Prim) :
  let c1 := outgoing t config in
  let t1 := sent c1 t in
  let rc := outgoing t1 (refreshCall (getItem "refreshToken" t)) in
  let newAccessToken := default Undefined (o !! "access") in
  let t2 := setItem "accessToken" (toString newAccessToken) (sent rc t1) in
  let c3 := outgoing t2 (retryOf (set_retry true c1) newAccessToken) in
  retry config = false →
  server (network t) c1 = Replied 401 b1 →
  server (network t1) rc = Replied st2 (JObject o) →
  validateStatus st2 = true →
  server (network t2) c3 = Replied 401 b3 →
  axiosInstance (S (S fuel)) server config t
  = (Settled (Rejected (mkError c3 (Some (mkResponse 401 b3)))), sent c3 t2)
  ∧ network (sent c3 t2) = (network t ++ [c1; rc; c3])%list.
Proof.
  intros c1 t1 rc new t2 c3 Hr H1 H2 Hok H3.
  rewrite (recovery_redispatch server config t fuel b1 st2 o Hr H1 H2 Hok).
  fold c1 t1 rc new t2.
  rewrite axiosInstance_terminal by (by right).
  fold c3. rewrite H3. split; [done|].
  simpl. by rewrite <- !app_assoc.
Qed.

(** C3: one authorization failure, then a refresh call answered with a
    new access token: the token is stored, the original request goes
    out exactly once more, marked and bearing the new token, and the
    outcome of that dispatch is the outcome of the call, whatever it
    is. *)
Theorem refresh_then_retry_once
    (fuel : nat) (server : Server) (config : Config) (t : Tab)
    (b1 : Json) (st2 : Z) (o : gmap string Prim) (tok : string) :
  let c1 := outgoing t config in
  let t1 := sent c1 t in
  let rc := outgoing t1 (refreshCall (getItem "refreshToken" t)) in
  let t2 := setItem "accessToken" tok (sent rc t1) in
  let c3 := outgoing t2 (retryOf (set_retry true c1) (Str tok)) in
  retry config = false →
  server (network t) c1 = Replied 401 b1 →
  server (network t1) rc = Replied st2 (JObject o) →
  validateStatus st2 = true →
  o !! "access" = Some (Str tok) →
  let result := axiosInstance (S (S fuel)) server config t in
  fst result = Settled (settle c3 (server (network t2) c3))
  ∧ network (snd result) = (network t ++ [c1; rc; c3])%list
  ∧ data rc = JObject {[ "refresh" := ofItem (getItem "refreshToken" t) ]}
  ∧ (method c3 = method config ∧ url c3 = url config ∧ data c3 = data config)
  ∧ retry c3 = true
  ∧ headers c3 !! "Authorization" = Some ("Bearer " +:+ tok)
  ∧ getItem "accessToken" (snd result) = Some tok.
Proof.
  intros c1 t1 rc t2 c3 Hr H1 H2 Hok Hacc result. unfold result.
  rewrite (recovery_redispatch server config t fuel b1 st2 o Hr H1 H2 Hok).
  rewrite Hacc. cbn [default from_option id toString].
  fold c1 t1 rc t2.
  rewrite axiosInstance_terminal by (by right).
  fold c3. cbn [fst snd].
  split; [done|]. split; [simpl; by rewrite <- !app_assoc|].
  split; [unfold rc; by rewrite data_outgoing|].
  split.
  { unfold c3. rewrite method_outgoing, url_outgoing, data_outgoing.
    cbn [retryOf set_headers set_retry method url data]. unfold c1.
    by rewrite method_outgoing, url_outgoing, data_outgoing. }
  split; [unfold c3; by rewrite retry_outgoing|].
  split.
  - unfold c3, outgoing, requestInterceptor.
    replace (getItem "accessToken" t2) with (Some tok)
      by (symmetry; apply getItem_setItem).
    destruct (truthy (Some tok)); simpl.
    + apply lookup_insert_eq.
    + rewrite lookup_union_l'; [apply lookup_insert_eq|].
      rewrite lookup_insert_eq. by eexists.
  - rewrite getItem_sent. apply getItem_setItem.
Qed.

(** The scenario of the specification: tokens ["A1"] and ["R1"], a 401
    on [/history/], a refresh answered with [{access: "A2"}]. *)
Lemma refresh_then_retry_once_witness :
  let result := axiosInstance 2 (Scenario.refreshing "A2") Scenario.history Scenario.tab0 in
  getItem "accessToken" Scenario.tab0 = Some "A1"
  ∧ getItem "refreshToken" Scenario.tab0 = Some "R1"
  ∧ fst result = Settled (Fulfilled (mkResponse 200 (JObject ∅)))
  ∧ map url (network (snd result)) = ["/history/"; "/token/refresh/"; "/history/"]
  ∧ map (λ c, headers c !! "Authorization") (network (snd result))
    = [Some "Bearer A1"; Some "Bearer A1"; Some "Bearer A2"]
  ∧ map data (network (snd result))
    = [JNull; JObject {[ "refresh" := Str "R1" ]}; JNull]
  ∧ getItem "accessToken" (snd result) = Some "A2".
Proof.
  destruct (refresh_then_retry_once 0 (Scenario.refreshing "A2")
              Scenario.history Scenario.tab0 (JObject ∅) 200
              {[ "access" := Str "A2" ]} "A2")
    as (Hres & Hnet & _ & _ & _ & _ & Htok); [vm_compute; reflexivity ..|].
  cbv zeta. rewrite Hres, Hnet, Htok.
  repeat split; vm_compute; reflexivity.
Defined.

(** C10: while a recovery whose refresh call is answered (2xx, an
    object) runs, the store is written once, at the access-token entry.
    The original request is dispatched again in the tab [t2], which is
    the tab at the start with that one entry written and the two
    requests sent; the refresh token, the user name and every other
    entry read in [t2] as they did at the start, and the dispatch
    itself writes nothing to the store. *)
Theorem recovery_writes_access_token_only
    (fuel : nat) (server : Server) (config : Config) (t : Tab)
    (b1 : Json) (st2 : Z) (o : gmap string Prim) :
  let c1 := outgoing t config in
  let t1 := sent c1 t in
  let rc := outgoing t1 (refreshCall (getItem "refreshToken" t)) in
  let newAccessToken := default Undefined (o !! "access") in
  let redispatched := retryOf (set_retry true c1) newAccessToken in
  let t2 := setItem "accessToken" (toString newAccessToken) (sent rc t1) in
  retry config = false →
  server (network t) c1 = Replied 401 b1 →
  server (network t1) rc = Replied st2 (JObject o) →
  validateStatus st2 = true →
  let result := axiosInstance (S (S fuel)) server config t in
  result = axiosInstance (S fuel) server redispatched t2
  ∧ network t2 = (network t ++ [c1; rc])%list
  ∧ localStorage t2 = <["accessToken" := toString newAccessToken]> (localStorage t)
  ∧ getItem "refreshToken" t2 = getItem "refreshToken" t
  ∧ getItem "username" t2 = getItem "username" t
  ∧ (∀ key, key ≠ "accessToken" → getItem key t2 = getItem key t)
  ∧ location t2 = location t
  ∧ localStorage (snd result) = localStorage t2.
Proof.
  intros c1 t1 rc new redispatched t2 Hr H1 H2 Hok result.
  assert (result = axiosInstance (S fuel) server redispatched t2) as Hrun
    by (by apply (recovery_redispatch server config t fuel b1 st2 o)).
  split; [exact Hrun|].
  split; [simpl; by rewrite <- app_assoc|].
  split; [reflexivity|].
  assert (∀ key, key ≠ "accessToken" → getItem key t2 = getItem key t) as Hframe.
  { intros key Hne. unfold t2. by rewrite getItem_setItem_ne. }
  split; [by apply Hframe|]. split; [by apply Hframe|].
  split; [exact Hframe|]. split; [reflexivity|].
  rewrite Hrun, axiosInstance_terminal; [reflexivity|].
  right. reflexivity.
Qed.

Lemma recovery_writes_access_token_only_witness :
  let c1 := outgoing Scenario.tab0 Scenario.history in
  let rc := outgoing Scenario.tab0 (refreshCall (Some "R1")) in
  let t2 := setItem "accessToken" "A2" (sent rc (sent c1 Scenario.tab0)) in
  let result := axiosInstance 2 (Scenario.refreshing "A2") Scenario.history Scenario.tab0 in
  result = axiosInstance 1 (Scenario.refreshing "A2")
             (retryOf (set_retry true c1) (Str "A2")) t2
  ∧ network t2 = [c1; rc]
  ∧ localStorage t2 = <["accessToken" := "A2"]> (localStorage Scenario.tab0)
  ∧ getItem "refreshToken" t2 = Some "R1"
  ∧ getItem "username" t2 = Some "sam"
  ∧ (∀ key, key ≠ "accessToken" → getItem key t2 = getItem key Scenario.tab0)
  ∧ location t2 = "/dashboard"
  ∧ localStorage (snd result) = localStorage t2.
Proof.
  destruct (recovery_writes_access_token_only 0 (Scenario.refreshing "A2")
              Scenario.history Scenario.tab0 (JObject ∅) 200
              {[ "access" := Str "A2" ]})
    as (Hrun & Hnet & Hls & Hrt & Hun & Hfr & Hloc & Hfin); [vm_compute; reflexivity ..|].
  cbv zeta.
  split; [exact Hrun|]. split; [exact Hnet|]. split; [exact Hls|].
  split; [exact Hrt|]. split; [exact Hun|]. split; [exact Hfr|].
  split; [exact Hloc|exact Hfin].
Defined.

(** A 2xx answer to the refresh call whose body is [null] makes line 62
    throw inside [try]: it is handled as a rejected refresh call. *)
Example refresh_answer_without_body :
  let server : Server :=
    λ seen c, if Scenario.isRefresh c then Replied 200 JNull
              else Replied 401 (JObject ∅) in
  let result := axiosInstance 2 server Scenario.history Scenario.tab0 in
  map url (network (snd result)) = ["/history/"; "/token/refresh/"]
  ∧ getItem "accessToken" (snd result) = None
  ∧ getItem "refreshToken" (snd result) = None
  ∧ location (snd result) = "/login".
Proof. vm_compute. repeat split; reflexivity. Qed.

(** ** What no call of the client does *)

Lemma responseError_frames client error :
  frames client → frames (λ _, responseError client error).
Proof.
  intros Hc _ t. unfold responseError.
  destruct (err_response error) as [response|]; [|split; [done|by exists []; rewrite app_nil_r]].
  destruct (_ && _); [|split; [done|by exists []; rewrite app_nil_r]].
  destruct (Hc (refreshCall (getItem "refreshToken" t)) t) as [Hflag [rest Hnet]].
  destruct (client (refreshCall (getItem "refreshToken" t)) t) as [[[resp|err]|] t'];
    simpl in *; try (split; [done|by exists rest]).
  destruct (getProp (resp_data resp) "access") as [new|];
    simpl in *; try (split; [done|by exists rest]).
  set (t2 := setItem "accessToken" (toString new) t').
  destruct (Hc (retryOf (set_retry true (err_config error)) new) t2) as [Hflag' [rest' Hnet']].
  split; [by rewrite Hflag'|].
  exists (rest ++ rest')%list. rewrite Hnet'. simpl. by rewrite Hnet, app_assoc.
Qed.

Lemma axiosInstance_frames fuel server : frames (axiosInstance fuel server).
Proof.
  induction fuel as [|fuel IH]; intros config t.
  - split; [done|by exists []; rewrite app_nil_r].
  - simpl. destruct (settle _ _) as [response|error].
    + split; [done|by eexists].
    + destruct (responseError_frames _ error IH config
                  (sent (outgoing t config) t)) as [Hflag [rest Hnet]].
      split; [done|]. exists (outgoing t config :: rest).
      rewrite Hnet. simpl. by rewrite <- app_assoc.
Qed.

Lemma axiosInstance_first_dispatch fuel server config t :
  ∃ rest, network (snd (axiosInstance (S fuel) server config t))
          = (network t ++ outgoing t config :: rest)%list.
Proof.
  simpl. destruct (settle _ _) as [response|error].
  - by exists [].
  - destruct (responseError_frames _ error (axiosInstance_frames fuel server) config
                (sent (outgoing t config) t)) as [_ [rest Hnet]].
    exists rest. rewrite Hnet. simpl. by rewrite <- app_assoc.
Qed.

(** C6: a request dispatched while an access token is stored goes out
    with [Authorization: Bearer] and that token, whatever headers the
    caller gave it.  A token is a non-empty string: line 27 tests the
    stored value for truthiness, and the empty string is the one stored
    value that is falsy. *)
Theorem bearer_token_attached
    (fuel : nat) (server : Server) (config : Config) (t : Tab) (tok : string) :
  getItem "accessToken" t = Some tok → tok ≠ "" →
  let c := outgoing t config in
  headers c !! "Authorization" = Some ("Bearer " +:+ tok)
  ∧ ∃ rest, network (snd (axiosInstance (S fuel) server config t))
            = (network t ++ c :: rest)%list.
Proof.
  intros Htok Hne c. split; [|apply axiosInstance_first_dispatch].
  unfold c, outgoing, requestInterceptor.
  assert (truthy (getItem "accessToken" t) = true) as ->
    by (apply truthy_Some; eauto).
  rewrite Htok. simpl. apply lookup_insert_eq.
Qed.

Lemma bearer_token_attached_witness :
  headers (outgoing Scenario.tab0 Scenario.history) !! "Authorization"
  = Some ("Bearer " +:+ "A1")
  ∧ ∃ rest, network (snd (axiosInstance 1 Scenario.expired Scenario.history Scenario.tab0))
            = (network Scenario.tab0 ++ outgoing Scenario.tab0 Scenario.history :: rest)%list.
Proof.
  apply (bearer_token_attached 0 Scenario.expired Scenario.history Scenario.tab0 "A1").
  - vm_compute; reflexivity.
  - discriminate.
Defined.

(** The empty string is treated like no entry at all: the request goes
    out without an [Authorization] header. *)
Example empty_access_token_not_attached :
  let t := mkTab {[ "accessToken" := "" ]} "/" false [] in
  let result := axiosInstance 1 Scenario.expired Scenario.history t in
  getItem "accessToken" t = Some ""
  ∧ map (λ c, headers c !! "Authorization") (network (snd result)) = [None].
Proof. vm_compute. split; reflexivity. Qed.

(** ** The recovery path when the refresh call is rejected *)

(** C4, as the code has it: when the promise of the refresh call
    rejects, both tokens are removed from the store, the location is set
    to [/login], and the original request rejects with its own 401
    error, now marked.  The client does not write the provider's flag:
    it keeps the value it had, and reads [false] once the provider
    initialises again or handles a storage notification. *)
Theorem refresh_rejected_clears_tokens
    (fuel : nat) (server : Server) (config : Config) (t : Tab)
    (b1 : Json) (refreshError : AxiosError) (t' : Tab) :
  let c1 := outgoing t config in
  retry config = false →
  server (network t) c1 = Replied 401 b1 →
  axiosInstance (S fuel) server (refreshCall (getItem "refreshToken" t)) (sent c1 t)
  = (Settled (Rejected refreshError), t') →
  let result := axiosInstance (S (S fuel)) server config t in
  fst result = Settled (Rejected (mkError (set_retry true c1) (Some (mkResponse 401 b1))))
  ∧ getItem "accessToken" (snd result) = None
  ∧ getItem "refreshToken" (snd result) = None
  ∧ location (snd result) = "/login"
  ∧ isLoggedIn (snd result) = isLoggedIn t
  ∧ isLoggedIn (AuthProvider.mount (snd result)) = false
  ∧ isLoggedIn (AuthProvider.handleStorageChange (snd result)) = false.
Proof.
  intros c1 Hr H1 Hrefresh result. unfold result.
  rewrite axiosInstance_recovers; fold c1; [|by rewrite H1|done].
  rewrite H1. cbv zeta. rewrite Hrefresh. cbn [fst snd responseOf].
  assert (getItem "accessToken" (refreshFailed t') = None) as Hacc.
  { unfold refreshFailed. change (getItem "accessToken" (set_location "/login" ?x))
      with (getItem "accessToken" x).
    rewrite getItem_removeItem_ne by done. apply getItem_removeItem. }
  split; [done|]. split; [exact Hacc|].
  split; [apply getItem_removeItem|]. split; [done|].
  split.
  - pose proof (axiosInstance_frames (S fuel) server
                  (refreshCall (getItem "refreshToken" t)) (sent c1 t)) as [Hflag _].
    rewrite Hrefresh in Hflag. exact Hflag.
  - unfold AuthProvider.mount, AuthProvider.handleStorageChange,
      AuthProvider.setIsLoggedIn, AuthProvider.initialState.
    cbn [isLoggedIn set_isLoggedIn]. by rewrite Hacc.
Qed.

Lemma refresh_rejected_clears_tokens_witness :
  let result := axiosInstance 2 Scenario.refreshDown Scenario.history Scenario.tab0 in
  fst result
  = Settled (Rejected (mkError (set_retry true (outgoing Scenario.tab0 Scenario.history))
                         (Some (mkResponse 401 (JObject ∅)))))
  ∧ getItem "accessToken" (snd result) = None
  ∧ getItem "refreshToken" (snd result) = None
  ∧ location (snd result) = "/login"
  ∧ isLoggedIn (snd result) = isLoggedIn Scenario.tab0
  ∧ isLoggedIn (AuthProvider.mount (snd result)) = false
  ∧ isLoggedIn (AuthProvider.handleStorageChange (snd result)) = false.
Proof.
  refine (refresh_rejected_clears_tokens 0 Scenario.refreshDown Scenario.history
            Scenario.tab0 (JObject ∅)
            (mkError (outgoing Scenario.tab0 (refreshCall (Some "R1")))
               (Some (mkResponse 500 JNull)))
            (sent (outgoing Scenario.tab0 (refreshCall (Some "R1")))
               (sent (outgoing Scenario.tab0 Scenario.history) Scenario.tab0))
            _ _ _); vm_compute; reflexivity.
Defined.

(** The direct case: the refresh endpoint answers with a failure that
    is not a 401, or does not answer. *)
Corollary refresh_endpoint_failure
    (fuel : nat) (server : Server) (config : Config) (t : Tab) (b1 : Json) :
  let c1 := outgoing t config in
  let t1 := sent c1 t in
  let rc := outgoing t1 (refreshCall (getItem "refreshToken" t)) in
  let r2 := server (network t1) rc in
  retry config = false →
  server (network t) c1 = Replied 401 b1 →
  failure r2 = true → authorizationFailure r2 = false →
  axiosInstance (S (S fuel)) server config t
  = (Settled (Rejected (mkError (set_retry true c1) (Some (mkResponse 401 b1)))),
     refreshFailed (sent rc t1)).
Proof.
  intros c1 t1 rc r2 Hr H1 Hf Ha.
  rewrite axiosInstance_recovers; fold c1; [|by rewrite H1|done].
  rewrite H1. cbv zeta. fold t1.
  rewrite axiosInstance_terminal by (by left).
  fold rc r2. by rewrite (settle_failure _ _ Hf).
Qed.

(** C4, as stated, fails at the flag: in a tab whose provider has seen
    the token, a refresh endpoint that is down leaves the store without
    tokens and the flag still [true]; the private guard of that tab
    still renders its children. *)
Lemma refresh_failure_keeps_flag :
  let result := axiosInstance 2 Scenario.refreshDown Scenario.history Scenario.tab0 in
  (∃ error, fst result = Settled (Rejected error))
  ∧ getItem "accessToken" (snd result) = None
  ∧ getItem "refreshToken" (snd result) = None
  ∧ location (snd result) = "/login"
  ∧ isLoggedIn (snd result) = true
  ∧ Routes.PrivateRoute (snd result) tt = Routes.Children tt.
Proof.
  cbv zeta. split; [eexists; vm_compute; reflexivity|].
  vm_compute. repeat split; reflexivity.
Qed.

(** ** The refresh call goes through the same interceptors *)

(** The refresh call is made with [axiosInstance.post], as a fresh
    config without the mark, so a 401 on it starts a recovery of its
    own.  Against a service that answers every request with a 401, a
    call nested [n] deep has sent [n] refresh calls and is not settled. *)
Lemma refresh_call_recurses (n : nat) :
  ∀ t : Tab,
    axiosInstance n Scenario.expired (refreshCall (getItem "refreshToken" t)) t
    = (Pending,
       mkTab (localStorage t) (location t) (isLoggedIn t)
         (network t ++ replicate n (outgoing t (refreshCall (getItem "refreshToken" t))))).
Proof.
  induction n as [|n IH]; intros t.
  - destruct t; simpl. by rewrite app_nil_r.
  - rewrite axiosInstance_recovers by reflexivity. cbv zeta.
    set (c := outgoing t (refreshCall (getItem "refreshToken" t))).
    change (getItem "refreshToken" t) with (getItem "refreshToken" (sent c t)).
    rewrite IH. simpl. by rewrite <- app_assoc.
Qed.

Lemma unmarked_request_never_settles (n : nat) (config : Config) (t : Tab) :
  retry config = false →
  axiosInstance (S n) Scenario.expired config t
  = (Pending,
     mkTab (localStorage t) (location t) (isLoggedIn t)
       (network t ++ outgoing t config
          :: replicate n (outgoing t (refreshCall (getItem "refreshToken" t))))).
Proof.
  intros Hr. rewrite axiosInstance_recovers by done. cbv zeta.
  set (c := outgoing t config).
  change (getItem "refreshToken" t) with (getItem "refreshToken" (sent c t)).
  rewrite refresh_call_recurses. simpl. by rewrite <- app_assoc.
Qed.

(** C2 does not hold of the code.  With the tokens ["A1"] and ["R1"]
    stored and a service that answers [/history/] and every refresh
    call with a 401, each refresh call's 401 triggers the next refresh
    call: whatever the nesting depth, the promise of the request is
    still pending, the requests sent are [/history/] followed by refresh
    calls only, and the [catch] block has not run (the tokens are still
    stored, the location is unchanged). *)
Theorem refresh_call_401_triggers_refresh (n : nat) :
  let result := axiosInstance (S n) Scenario.expired Scenario.history Scenario.tab0 in
  fst result = Pending
  ∧ map url (network (snd result)) = "/history/" :: replicate n "/token/refresh/"
  ∧ getItem "accessToken" (snd result) = Some "A1"
  ∧ getItem "refreshToken" (snd result) = Some "R1"
  ∧ location (snd result) = "/dashboard".
Proof.
  cbv zeta. rewrite unmarked_request_never_settles by reflexivity.
  cbn [fst snd network location]. split; [done|].
  split; [|by vm_compute].
  change (network Scenario.tab0) with (@nil Config). rewrite app_nil_l.
  cbn [map]. f_equal.
  induction n as [|n IH]; [done|]. cbn [replicate map]. f_equal. exact IH.
Qed.

(** The same defect where the service gives up after three requests:
    the 401 on the first refresh call made the client send a second
    one. *)
Example refresh_call_401_triggers_refresh_once :
  let result := axiosInstance 3 (Scenario.expiredUntil 3) Scenario.history Scenario.tab0 in
  map url (network (snd result)) = ["/history/"; "/token/refresh/"; "/token/refresh/"]
  ∧ map (λ c, data c) (network (snd result))
    = [JNull; JObject {[ "refresh" := Str "R1" ]}; JObject {[ "refresh" := Str "R1" ]}].
Proof. vm_compute. split; reflexivity. Qed.

(** ** The session flag *)

(** C5, as the code has it: [setIsLoggedIn] writes the flag and nothing
    else, for [false] as for [true]; the tokens are removed by
    [handleLogout], which then calls [setIsLoggedIn(false)] and
    navigates to [/login]. *)
Theorem setIsLoggedIn_writes_flag_only (b : bool) (t : Tab) :
  (isLoggedIn (AuthProvider.setIsLoggedIn b t) = b
   ∧ localStorage (AuthProvider.setIsLoggedIn b t) = localStorage t
   ∧ location (AuthProvider.setIsLoggedIn b t) = location t
   ∧ network (AuthProvider.setIsLoggedIn b t) = network t)
  ∧ (getItem "accessToken" (Header.handleLogout t) = None
     ∧ getItem "refreshToken" (Header.handleLogout t) = None
     ∧ isLoggedIn (Header.handleLogout t) = false
     ∧ location (Header.handleLogout t) = "/login"
     ∧ localStorage (Header.handleLogout t)
       = delete "refreshToken" (delete "accessToken" (localStorage t))).
Proof.
  split; [done|].
  unfold Header.handleLogout, Header.navigate, AuthProvider.setIsLoggedIn.
  cbv zeta.
  change (getItem ?k (set_location _ (set_isLoggedIn _ ?x))) with (getItem k x).
  rewrite getItem_removeItem, getItem_removeItem_ne by done.
  by rewrite getItem_removeItem.
Qed.

(** C5, as stated, fails: [setIsLoggedIn(false)] on a tab that holds
    both tokens leaves both in the store; and the storage listener,
    the other caller of [setIsLoggedIn] with [false], leaves a stored
    refresh token where it is. *)
Lemma setIsLoggedIn_false_keeps_tokens :
  let t := AuthProvider.setIsLoggedIn false Scenario.tab0 in
  let t' := AuthProvider.handleStorageChange
              (removeItem "accessToken" Scenario.tab0) in
  (isLoggedIn t = false
   ∧ getItem "accessToken" t = Some "A1"
   ∧ getItem "refreshToken" t = Some "R1")
  ∧ (isLoggedIn Scenario.tab0 = true
     ∧ isLoggedIn t' = false
     ∧ getItem "refreshToken" t' = Some "R1").
Proof. vm_compute. repeat split; reflexivity. Qed.

(** C8, as the code has it: the flag is a cached value.  It is [true]
    exactly when a non-empty access token is stored at the two moments
    the provider reads the store, when it initialises in a browser and
    when a storage notification arrives; without a [window] it starts
    [false]; [setIsLoggedIn] overwrites it with any value; and no call
    of the API client changes it. *)
Theorem isLoggedIn_is_cached (t : Tab) :
  (isLoggedIn (AuthProvider.mount t) = true
   ↔ ∃ tok, getItem "accessToken" t = Some tok ∧ tok ≠ "")
  ∧ (isLoggedIn (AuthProvider.handleStorageChange t) = true
     ↔ ∃ tok, getItem "accessToken" t = Some tok ∧ tok ≠ "")
  ∧ AuthProvider.initialState None = false
  ∧ (∀ b, isLoggedIn (AuthProvider.setIsLoggedIn b t) = b)
  ∧ (∀ fuel server config,
       isLoggedIn (snd (axiosInstance fuel server config t)) = isLoggedIn t).
Proof.
  split; [apply truthy_Some|]. split; [apply truthy_Some|].
  split; [done|]. split; [done|].
  intros fuel server config. apply axiosInstance_frames.
Qed.

(** C8, as stated, fails: after a recovery whose refresh call was
    rejected the store holds no access token and the flag still reads
    [true]. *)
Lemma isLoggedIn_can_be_stale :
  let t := snd (axiosInstance 2 Scenario.refreshDown Scenario.history Scenario.tab0) in
  ¬ (isLoggedIn t = true ↔ is_Some (getItem "accessToken" t)).
Proof.
  cbv zeta. intros [H _].
  assert (is_Some (@None string)) as [x Hx]; [|discriminate].
  apply H. vm_compute. reflexivity.
Qed.

(** ** The route guards *)

(** C9: the public guard renders its children exactly when the flag is
    [false] and navigates to [/dashboard] otherwise; the private guard
    renders its children exactly when the flag is [true] and navigates
    to [/login] otherwise. *)
Theorem route_guards (A : Type) (t : Tab) (children : A) :
  Routes.PublicRoute t children
  = (if isLoggedIn t then Routes.Navigate "/dashboard" else Routes.Children children)
  ∧ Routes.PrivateRoute t children
    = (if isLoggedIn t then Routes.Children children else Routes.Navigate "/login")
  ∧ (Routes.PublicRoute t children = Routes.Children children ↔ isLoggedIn t = false)
  ∧ (Routes.PrivateRoute t children = Routes.Children children ↔ isLoggedIn t = true).
Proof.
  unfold Routes.PublicRoute, Routes.PrivateRoute.
  destruct (isLoggedIn t); simpl; repeat split; done.
Qed.


(** * Further properties of the client *)

(** ** One dispatch *)

(** X1: a request answered with a 2xx status is dispatched once and its
    response is handed to the caller as received; the store, the
    location and the flag are not touched. *)
Theorem success_passes_through
    (fuel : nat) (server : Server) (config : Config) (t : Tab)
    (st : Z) (body : Json) :
  let c := outgoing t config in
  server (network t) c = Replied st body →
  validateStatus st = true →
  axiosInstance (S fuel) server config t
  = (Settled (Fulfilled (mkResponse st body)), sent c t).
Proof.
  intros c Hreply Hok.
  rewrite axiosInstance_terminal; fold c; rewrite Hreply.
  - by rewrite (settle_success _ _ _ Hok).
  - left. by apply success_not_authorizationFailure.
Qed.

Lemma success_passes_through_witness :
  axiosInstance 1 Scenario.welcoming (get "/goals/") Scenario.tab0
  = (Settled (Fulfilled (mkResponse 200
       (JObject (<["access" := Str "A1"]> {[ "refresh" := Str "R1" ]})))),
     sent (outgoing Scenario.tab0 (get "/goals/")) Scenario.tab0).
Proof.
  apply (success_passes_through 0 Scenario.welcoming (get "/goals/") Scenario.tab0);
    vm_compute; reflexivity.
Defined.


(** ** What every call preserves *)

Lemma axiosInstance_other_keys (server : Server) (key : string) :
  key ≠ "accessToken" → key ≠ "refreshToken" →
  ∀ fuel config t,
    getItem key (snd (axiosInstance fuel server config t)) = getItem key t.
Proof.
  intros Hacc Href. induction fuel as [|fuel IH]; intros config t; [done|].
  simpl. destruct (settle _ _) as [response|error]; [done|].
  unfold responseError.
  destruct (err_response error) as [response|]; [|done].
  destruct (_ && _); [|done].
  set (t1 := sent (outgoing t config) t).
  pose proof (IH (refreshCall (getItem "refreshToken" t1)) t1) as Hinner.
  destruct (axiosInstance fuel server (refreshCall (getItem "refreshToken" t1)) t1)
    as [[[resp|err]|] t'] eqn:E; simpl in Hinner.
  - destruct (getProp (resp_data resp) "access") as [new|].
    + rewrite IH. rewrite getItem_setItem_ne by done. by rewrite Hinner.
    + simpl. unfold refreshFailed.
      change (getItem key (set_location "/login" ?x)) with (getItem key x).
      rewrite !getItem_removeItem_ne by done. by rewrite Hinner.
  - simpl. unfold refreshFailed.
    change (getItem key (set_location "/login" ?x)) with (getItem key x).
    rewrite !getItem_removeItem_ne by done. by rewrite Hinner.
  - simpl. by rewrite Hinner.
Qed.

(** X3: the refresh token is never replaced and a redirect never leaves
    tokens behind.  After any call of the client, either the location
    and the refresh token are as before, or the location is [/login],
    both tokens are gone and the call was rejected. *)
Theorem redirect_or_untouched
    (fuel : nat) (server : Server) (config : Config) (t : Tab) :
  let result := axiosInstance fuel server config t in
  (location (snd result) = location t
   ∧ getItem "refreshToken" (snd result) = getItem "refreshToken" t)
  ∨ (location (snd result) = "/login"
     ∧ getItem "accessToken" (snd result) = None
     ∧ getItem "refreshToken" (snd result) = None
     ∧ ∃ error, fst result = Settled (Rejected error)).
Proof.
  cbv zeta. revert config t.
  assert (∀ t' error, 
            location (refreshFailed t') = "/login"
            ∧ getItem "accessToken" (refreshFailed t') = None
            ∧ getItem "refreshToken" (refreshFailed t') = None
            ∧ ∃ e, Settled (Rejected error) = Settled (Rejected e)) as Hfailed.
  { intros t' error. split; [done|]. unfold refreshFailed.
    change (getItem ?k (set_location "/login" ?x)) with (getItem k x).
    split; [|split; [apply getItem_removeItem|by eexists]].
    rewrite getItem_removeItem_ne by done. apply getItem_removeItem. }
  induction fuel as [|fuel IH]; intros config t; [by left|].
  simpl. destruct (settle _ _) as [response|error]; [by left|].
  unfold responseError.
  destruct (err_response error) as [response|]; [|by left].
  destruct (_ && _); [|by left].
  set (t1 := sent (outgoing t config) t).
  pose proof (IH (refreshCall (getItem "refreshToken" t1)) t1) as Hinner.
  destruct (axiosInstance fuel server (refreshCall (getItem "refreshToken" t1)) t1)
    as [[[resp|err]|] t'] eqn:E; simpl in Hinner.
  - destruct (getProp (resp_data resp) "access") as [new|]; [|right; apply Hfailed].
    destruct Hinner as [[Hloc Hrt]|(_ & _ & _ & e & He)]; [|discriminate].
    destruct (IH (retryOf (set_retry true (err_config error)) new)
                (setItem "accessToken" (toString new) t')) as [[Hloc' Hrt']|Hout].
    + left. rewrite Hloc', Hrt'. rewrite getItem_setItem_ne by done.
      split; [exact Hloc|exact Hrt].
    + by right.
  - right. apply Hfailed.
  - left. destruct Hinner as [H|(_ & _ & _ & e & He)]; [exact H|discriminate].
Qed.

(** X4: the client writes two entries of the store and no other: for
    every other key, the user name among them, what [getItem] reads is
    the same after any call of the client, after [handleLogin] and
    after [handleLogout]. *)
Theorem only_token_entries_written
    (fuel : nat) (server : Server) (t : Tab) (key : string) :
  key ≠ "accessToken" → key ≠ "refreshToken" →
  (∀ config, getItem key (snd (axiosInstance fuel server config t)) = getItem key t)
  ∧ (∀ username password,
       getItem key (Login.handleLogin fuel server username password t) = getItem key t)
  ∧ getItem key (Header.handleLogout t) = getItem key t.
Proof.
  intros Hacc Href. split; [|split].
  - intros config. by apply axiosInstance_other_keys.
  - intros username password. unfold Login.handleLogin.
    set (config := post "/token/" _).
    pose proof (axiosInstance_other_keys server key Hacc Href fuel config t) as H.
    destruct (axiosInstance fuel server config t) as [[[resp|err]|] t']; simpl in H; try done.
    destruct (getProp (resp_data resp) "access") as [access|]; [|done].
    destruct (getProp (resp_data resp) "refresh") as [refresh|]; [|done].
    unfold Header.navigate, AuthProvider.setIsLoggedIn.
    change (getItem key (set_location _ (set_isLoggedIn _ ?x))) with (getItem key x).
    by rewrite !getItem_setItem_ne.
  - unfold Header.handleLogout, Header.navigate, AuthProvider.setIsLoggedIn.
    cbv zeta.
    change (getItem key (set_location _ (set_isLoggedIn _ ?x))) with (getItem key x).
    by rewrite !getItem_removeItem_ne.
Qed.

Lemma only_token_entries_written_witness :
  (∀ config,
     getItem "username" (snd (axiosInstance 3 Scenario.refreshDown config Scenario.tab0))
     = getItem "username" Scenario.tab0)
  ∧ (∀ username password,
       getItem "username"
         (Login.handleLogin 3 Scenario.refreshDown username password Scenario.tab0)
       = getItem "username" Scenario.tab0)
  ∧ getItem "username" (Header.handleLogout Scenario.tab0)
    = getItem "username" Scenario.tab0.
Proof.
  apply (only_token_entries_written 3 Scenario.refreshDown Scenario.tab0 "username");
    discriminate.
Defined.

(** ** When the recovery ends *)



(** X6: the interceptor does not look whether a refresh token is
    stored.  An unmarked request refused with a 401 in a tab without a
    refresh token is followed by a refresh call all the same, a [POST]
    to [/token/refresh/] whose body is [{refresh: null}]. *)
Theorem refresh_call_without_refresh_token
    (fuel : nat) (server : Server) (config : Config) (t : Tab) (b1 : Json) :
  let c1 := outgoing t config in
  let rc := outgoing t (refreshCall None) in
  retry config = false →
  server (network t) c1 = Replied 401 b1 →
  getItem "refreshToken" t = None →
  (method rc = "post" ∧ url rc = "/token/refresh/"
   ∧ data rc = JObject {[ "refresh" := Null ]})
  ∧ ∃ rest, network (snd (axiosInstance (S (S fuel)) server config t))
            = (network t ++ c1 :: rc :: rest)%list.
Proof.
  intros c1 rc Hr H1 Hnone.
  split. { unfold rc. by rewrite method_outgoing, url_outgoing, data_outgoing. }
  rewrite axiosInstance_recovers; fold c1; [|by rewrite H1|done].
  cbv zeta. rewrite Hnone. set (t1 := sent c1 t).
  destruct (axiosInstance_first_dispatch fuel server (refreshCall None) t1)
    as [rest Hnet].
  change (outgoing t1 (refreshCall None)) with rc in Hnet.
  destruct (axiosInstance (S fuel) server (refreshCall None) t1)
    as [[[resp|err]|] t'] eqn:E; cbn [snd] in Hnet.
  - destruct (getProp (resp_data resp) "access") as [new|].
    + destruct (axiosInstance_frames (S fuel) server
                  (retryOf (set_retry true c1) new)
                  (setItem "accessToken" (toString new) t')) as [_ [rest' Hnet']].
      exists (rest ++ rest')%list. rewrite Hnet'. simpl. rewrite Hnet.
      simpl. by rewrite <- !app_assoc.
    + exists rest. simpl. rewrite Hnet. simpl. by rewrite <- !app_assoc.
  - exists rest. simpl. rewrite Hnet. simpl. by rewrite <- !app_assoc.
  - exists rest. simpl. rewrite Hnet. simpl. by rewrite <- !app_assoc.
Qed.

Lemma refresh_call_without_refresh_token_witness :
  let t := mkTab {[ "accessToken" := "A1" ]} "/dashboard" true [] in
  let c1 := outgoing t Scenario.history in
  let rc := outgoing t (refreshCall None) in
  (method rc = "post" ∧ url rc = "/token/refresh/"
   ∧ data rc = JObject {[ "refresh" := Null ]})
  ∧ ∃ rest, network (snd (axiosInstance 2 Scenario.refreshDown Scenario.history t))
            = (network t ++ c1 :: rc :: rest)%list.
Proof.
  intros t c1 rc.
  apply (refresh_call_without_refresh_token 0 Scenario.refreshDown
           Scenario.history t (JObject ∅)); vm_compute; reflexivity.
Defined.

(** X7: a refresh call answered with a 2xx object that has no
    [access] field still counts as a success.  The string
    ["undefined"] is stored as the access token, the retry goes out
    with [Bearer undefined], and a provider that initialises next reads
    the tab as logged in. *)
Theorem refresh_answer_without_access_field
    (fuel : nat) (server : Server) (config : Config) (t : Tab)
    (b1 : Json) (st2 : Z) (o : gmap string Prim) :
  let c1 := outgoing t config in
  let t1 := sent c1 t in
  let rc := outgoing t1 (refreshCall (getItem "refreshToken" t)) in
  let t2 := setItem "accessToken" "undefined" (sent rc t1) in
  let c3 := outgoing t2 (retryOf (set_retry true c1) Undefined) in
  retry config = false →
  server (network t) c1 = Replied 401 b1 →
  server (network t1) rc = Replied st2 (JObject o) →
  validateStatus st2 = true →
  o !! "access" = None →
  let result := axiosInstance (S (S fuel)) server config t in
  result = (Settled (settle c3 (server (network t2) c3)), sent c3 t2)
  ∧ getItem "accessToken" (snd result) = Some "undefined"
  ∧ headers c3 !! "Authorization" = Some "Bearer undefined"
  ∧ isLoggedIn (AuthProvider.mount (snd result)) = true.
Proof.
  intros c1 t1 rc t2 c3 Hr H1 H2 Hok Hacc result. unfold result.
  rewrite (recovery_redispatch server config t fuel b1 st2 o Hr H1 H2 Hok).
  rewrite Hacc. cbn [default from_option id toString].
  fold c1 t1 rc t2.
  rewrite axiosInstance_terminal by (by right). fold c3. cbn [snd].
  assert (getItem "accessToken" (sent c3 t2) = Some "undefined") as Htok
    by apply getItem_setItem.
  split; [done|]. split; [exact Htok|]. split.
  - unfold c3, outgoing, requestInterceptor.
    replace (getItem "accessToken" t2) with (Some "undefined")
      by (symmetry; apply getItem_setItem).
    cbn. apply lookup_insert_eq.
  - unfold AuthProvider.mount, AuthProvider.initialState.
    cbn [isLoggedIn set_isLoggedIn]. by rewrite Htok.
Qed.

Lemma refresh_answer_without_access_field_witness :
  let server : Server :=
    λ seen c, if Scenario.isRefresh c then Replied 200 (JObject ∅)
              else Replied 401 (JObject ∅) in
  let result := axiosInstance 2 server Scenario.history Scenario.tab0 in
  getItem "accessToken" (snd result) = Some "undefined"
  ∧ map (λ c, headers c !! "Authorization") (network (snd result))
    = [Some "Bearer A1"; Some "Bearer A1"; Some "Bearer undefined"]
  ∧ isLoggedIn (AuthProvider.mount (snd result)) = true.
Proof.
  intros server result.
  destruct (refresh_answer_without_access_field 0 server Scenario.history
              Scenario.tab0 (JObject ∅) 200 ∅)
    as (Hres & Htok & _ & Hflag); [vm_compute; reflexivity ..|].
  fold result in Hres, Htok, Hflag.
  split; [exact Htok|]. split; [|exact Hflag].
  rewrite Hres. vm_compute. reflexivity.
Defined.

(** * Logging in and out *)

(** X8: a login answered with a 2xx object stores what the answer has
    under [access] and [refresh] (a field that is missing is stored as
    the string ["undefined"]), sets the flag, and goes to the
    dashboard, which the private guard now renders.  The credentials
    went out once, as the body of a [POST] to [/token/]. *)
Theorem login_stores_tokens
    (fuel : nat) (server : Server) (username password : string) (t : Tab)
    (st : Z) (o : gmap string Prim) :
  let userData :=
    JObject (<["username" := Str username]> {[ "password" := Str password ]}) in
  let c := outgoing t (post "/token/" userData) in
  server (network t) c = Replied st (JObject o) →
  validateStatus st = true →
  let t' := Login.handleLogin (S fuel) server username password t in
  getItem "accessToken" t' = Some (toString (default Undefined (o !! "access")))
  ∧ getItem "refreshToken" t' = Some (toString (default Undefined (o !! "refresh")))
  ∧ isLoggedIn t' = true
  ∧ location t' = "/dashboard"
  ∧ network t' = (network t ++ [c])%list
  ∧ (method c = "post" ∧ url c = "/token/" ∧ data c = userData)
  ∧ App.render 1 t' = (Some App.DashboardPage, t').
Proof.
  intros userData c Hreply Hok t'. unfold t', Login.handleLogin.
  fold userData.
  rewrite axiosInstance_terminal
    by (left; fold c; rewrite Hreply; by apply success_not_authorizationFailure).
  fold c. rewrite Hreply, (settle_success _ _ _ Hok).
  cbn [resp_data getProp].
  unfold Header.navigate, AuthProvider.setIsLoggedIn.
  split.
  { change (getItem ?k (set_location _ (set_isLoggedIn _ ?x))) with (getItem k x).
    rewrite getItem_setItem_ne by done. apply getItem_setItem. }
  split.
  { change (getItem ?k (set_location _ (set_isLoggedIn _ ?x))) with (getItem k x).
    apply getItem_setItem. }
  split; [done|]. split; [done|]. split; [done|].
  split; [unfold c; by rewrite method_outgoing, url_outgoing, data_outgoing|].
  reflexivity.
Qed.

Lemma login_stores_tokens_witness :
  let t := mkTab ∅ "/login" false [] in
  let t' := Login.handleLogin 1 Scenario.welcoming "sam" "secret" t in
  getItem "accessToken" t' = Some "A1"
  ∧ getItem "refreshToken" t' = Some "R1"
  ∧ isLoggedIn t' = true
  ∧ location t' = "/dashboard"
  ∧ map url (network t') = ["/token/"]
  ∧ App.render 1 t' = (Some App.DashboardPage, t').
Proof.
  intros t t'.
  destruct (login_stores_tokens 0 Scenario.welcoming "sam" "secret" t 200
              (<["access" := Str "A1"]> {[ "refresh" := Str "R1" ]}))
    as (Ha & Hr & Hf & Hl & Hn & _ & Hp); [vm_compute; reflexivity ..|].
  fold t' in Ha, Hr, Hf, Hl, Hn, Hp.
  split; [exact Ha|]. split; [exact Hr|]. split; [exact Hf|].
  split; [exact Hl|]. split; [|exact Hp].
  rewrite Hn. vm_compute. reflexivity.
Defined.

(** X9: the login request goes through the same interceptors.  When
    the service refuses the credentials with a 401, the client makes a
    refresh call before the form learns of the failure; when that call
    fails in turn (any failure but a 401), whatever tokens were stored
    are removed and the location is set to [/login].  The flag is not
    written. *)
Theorem login_refused_starts_recovery
    (fuel : nat) (server : Server) (username password : string) (t : Tab)
    (b1 : Json) :
  let userData :=
    JObject (<["username" := Str username]> {[ "password" := Str password ]}) in
  let c1 := outgoing t (post "/token/" userData) in
  let t1 := sent c1 t in
  let rc := outgoing t1 (refreshCall (getItem "refreshToken" t)) in
  let r2 := server (network t1) rc in
  server (network t) c1 = Replied 401 b1 →
  failure r2 = true → authorizationFailure r2 = false →
  let t' := Login.handleLogin (S (S fuel)) server username password t in
  network t' = (network t ++ [c1; rc])%list
  ∧ url rc = "/token/refresh/"
  ∧ getItem "accessToken" t' = None
  ∧ getItem "refreshToken" t' = None
  ∧ location t' = "/login"
  ∧ isLoggedIn t' = isLoggedIn t.
Proof.
  intros userData c1 t1 rc r2 H1 Hf Ha t'. unfold t', Login.handleLogin.
  fold userData.
  rewrite (refresh_endpoint_failure fuel server (post "/token/" userData) t b1
             eq_refl H1 Hf Ha).
  fold c1 t1 rc. cbv iota beta.
  split; [simpl; by rewrite <- app_assoc|].
  split; [unfold rc; by rewrite url_outgoing|].
  unfold refreshFailed.
  change (getItem ?k (set_location "/login" ?x)) with (getItem k x).
  split; [rewrite getItem_removeItem_ne by done; apply getItem_removeItem|].
  split; [apply getItem_removeItem|]. done.
Qed.

Lemma login_refused_starts_recovery_witness :
  let t := mkTab {[ "username" := "sam" ]} "/login" false [] in
  let t' := Login.handleLogin 2 Scenario.refreshDown "sam" "wrong" t in
  map url (network t') = ["/token/"; "/token/refresh/"]
  ∧ getItem "accessToken" t' = None
  ∧ getItem "refreshToken" t' = None
  ∧ location t' = "/login"
  ∧ isLoggedIn t' = false.
Proof.
  intros t t'.
  destruct (login_refused_starts_recovery 0 Scenario.refreshDown "sam" "wrong" t
              (JObject ∅))
    as (Hn & _ & Ha & Hr & Hl & Hf); [vm_compute; reflexivity ..|].
  fold t' in Hn, Ha, Hr, Hl, Hf.
  split; [rewrite Hn; vm_compute; reflexivity|].
  split; [exact Ha|]. split; [exact Hr|]. split; [exact Hl|exact Hf].
Defined.

(** X10: after [handleLogout] the tab is logged out in every respect:
    the login route renders the login page and the dashboard route
    navigates to [/login]; a request goes out with the
    [Authorization] header the caller gave it, if any, and no other;
    and a second [handleLogout] changes nothing. *)
Theorem after_logout (t : Tab) (config : Config) :
  let t' := Header.handleLogout t in
  App.render 1 t' = (Some App.LoginPage, t')
  ∧ App.routeElement t' "/dashboard" = Some (Routes.Navigate "/login")
  ∧ headers (outgoing t' config) !! "Authorization"
    = headers config !! "Authorization"
  ∧ Header.handleLogout t' = t'.
Proof.
  intros t'. split; [reflexivity|]. split; [reflexivity|]. split.
  - unfold outgoing, requestInterceptor.
    assert (getItem "accessToken" t' = None) as ->.
    { unfold t', Header.handleLogout, Header.navigate, AuthProvider.setIsLoggedIn.
      cbv zeta.
      change (getItem ?k (set_location _ (set_isLoggedIn _ ?x))) with (getItem k x).
      rewrite getItem_removeItem_ne by done. apply getItem_removeItem. }
    simpl. unfold defaultHeaders.
    destruct (headers config !! "Authorization") as [v|] eqn:Hk.
    + by apply lookup_union_Some_l.
    + rewrite lookup_union_r by done. by apply lookup_singleton_ne.
  - unfold t', Header.handleLogout, Header.navigate, AuthProvider.setIsLoggedIn,
      removeItem, set_localStorage, set_location, set_isLoggedIn.
    cbn. f_equal. apply map_eq. intros key.
    rewrite !lookup_delete.
    repeat case_decide; done.
Qed.

(** * Routing *)

(** X11: the guards cannot send the router in circles.  From any
    location the table has a route for, at most one redirect leads to a
    page that its own route renders; the dashboard is reached only with
    the flag set, the login and registration pages only with the flag
    clear; and the store is not touched on the way. *)
Theorem routing_reaches_a_page (fuel : nat) (t : Tab) :
  is_Some (App.routeElement t (location t)) →
  ∃ page t',
    App.render (S (S fuel)) t = (Some page, t')
    ∧ App.routeElement t' (location t') = Some (Routes.Children page)
    ∧ localStorage t' = localStorage t
    ∧ isLoggedIn t' = isLoggedIn t
    ∧ (page = App.DashboardPage → isLoggedIn t = true)
    ∧ (page = App.LoginPage ∨ page = App.RegisterPage → isLoggedIn t = false).
Proof.
  destruct t as [ls loc flag net]. cbn [location isLoggedIn localStorage].
  unfold App.routeElement. cbn [location].
  intros Hsome.
  destruct (String.eqb_spec loc "/") as [->|H0].
  { eexists _, _. cbn. repeat split; try done. by intros [|]. }
  destruct (String.eqb_spec loc "/register") as [->|H1].
  { destruct flag; eexists _, _; cbn; repeat split; try done; by intros [|]. }
  destruct (String.eqb_spec loc "/login") as [->|H2].
  { destruct flag; eexists _, _; cbn; repeat split; try done; by intros [|]. }
  destruct (String.eqb_spec loc "/dashboard") as [->|H3].
  { destruct flag; eexists _, _; cbn; repeat split; try done; by intros [|]. }
  by destruct Hsome.
Qed.

Lemma routing_reaches_a_page_witness :
  ∃ page t',
    App.render 2 (Header.navigate "/login" Scenario.tab0) = (Some page, t')
    ∧ App.routeElement t' (location t') = Some (Routes.Children page)
    ∧ localStorage t' = localStorage (Header.navigate "/login" Scenario.tab0)
    ∧ isLoggedIn t' = isLoggedIn (Header.navigate "/login" Scenario.tab0)
    ∧ (page = App.DashboardPage
       → isLoggedIn (Header.navigate "/login" Scenario.tab0) = true)
    ∧ (page = App.LoginPage ∨ page = App.RegisterPage
       → isLoggedIn (Header.navigate "/login" Scenario.tab0) = false).
Proof.
  apply (routing_reaches_a_page 0 (Header.navigate "/login" Scenario.tab0)).
  vm_compute. eexists. reflexivity.
Defined.

(** * The breathing timer *)

Section Breathing.

Import BreathingExercise.

Lemma run_add (a b : nat) :
  ∀ st, run (a + b) st
        = let (s1, st1) := run a st in
          let (s2, st2) := run b st1 in ((s1 + s2)%nat, st2).
Proof.
  induction a as [|a IH]; intros st.
  - simpl. by destruct (run b st).
  - simpl. destruct (effect st) as [st'|st'|] eqn:E.
    + rewrite IH. destruct (run a st') as [s1 st1].
      by destruct (run b st1) as [s2 st2].
    + apply IH.
    + destruct b as [|b]; [done|]. simpl. by rewrite E.
Qed.

Lemma one_cycle (key : PatternKey) (count : nat) :
  let p := patterns key in
  run (inhale p + hold p + exhale p + 3)
    (mkState true Inhale (inhale p) key count)
  = ((inhale p + hold p + exhale p)%nat,
     mkState true Inhale (inhale p) key (count + 1)).
Proof. destruct key; vm_compute; reflexivity. Qed.

(** X12: once started, the exercise runs the pattern's cycle over and
    over: [n] cycles take [n] times [inhale + hold + exhale] seconds and
    leave the timer at the start of an inhale with the count at [n].
    The [hold2] of the box pattern takes no part: a box cycle lasts
    twelve seconds and has one hold. *)
Theorem breathing_cycles (n : nat) (st : State) :
  let p := currentPattern st in
  let seconds := (inhale p + hold p + exhale p)%nat in
  run (n * (seconds + 3)) (handleStart st)
  = ((n * seconds)%nat, mkState true Inhale (inhale p) (pattern st) n).
Proof.
  intros p seconds. unfold handleStart. fold p.
  assert (∀ count,
            run (n * (seconds + 3)) (mkState true Inhale (inhale p) (pattern st) count)
            = ((n * seconds)%nat,
               mkState true Inhale (inhale p) (pattern st) (count + n))) as H.
  { induction n as [|n IH]; intros count.
    - simpl. by rewrite Nat.add_0_r.
    - change (S n * (seconds + 3))%nat with (seconds + 3 + n * (seconds + 3))%nat.
      rewrite run_add.
      pose proof (one_cycle (pattern st) count) as Hcycle. cbv zeta in Hcycle.
      change (patterns (pattern st)) with p in Hcycle. fold seconds in Hcycle.
      rewrite Hcycle, IH.
      replace (count + 1 + n)%nat with (count + S n)%nat by lia.
      replace (seconds + n * seconds)%nat with (S n * seconds)%nat by lia.
      reflexivity. }
  by rewrite H.
Qed.

(** X13: what the timer keeps.  A stopped exercise stays exactly as it
    is; a running one never changes its pattern or stops by itself, its
    count never goes down, and the time shown never exceeds the longest
    phase of the pattern once it is within it. *)
Theorem breathing_invariants (renders : nat) (st : State) :
  let p := currentPattern st in
  let longest := (inhale p `max` (hold p `max` exhale p))%nat in
  let st' := snd (run renders st) in
  (isActive st = false → run renders st = (0%nat, st))
  ∧ pattern st' = pattern st
  ∧ isActive st' = isActive st
  ∧ (sessionCount st ≤ sessionCount st')%nat
  ∧ ((timeLeft st ≤ longest)%nat → (timeLeft st' ≤ longest)%nat).
Proof.
  cbv zeta. revert st. induction renders as [|renders IH]; intros st.
  { repeat split; done. }
  split.
  { intros Hoff. simpl. unfold effect. by rewrite Hoff. }
  simpl. unfold effect.
  destruct (isActive st) eqn:Hact; [|by rewrite !andb_false_l].
  rewrite !andb_true_l.
  destruct (timeLeft st) as [|n] eqn:Htime; cbn [Nat.ltb Nat.leb Nat.eqb].
  - destruct (phase st); 
      match goal with |- context [run renders ?s] =>
        destruct (IH s) as (_ & Hp & Ha & Hc & Ht) end;
      unfold currentPattern in *; cbn [pattern isActive sessionCount timeLeft] in *;
      (split; [exact Hp|]); (split; [exact Ha|]); (split; [lia|]);
      intros _; apply Ht; lia.
  - match goal with |- context [run renders ?s] =>
      destruct (IH s) as (_ & Hp & Ha & Hc & Ht); destruct (run renders s) as [sec st'']
    end.
    unfold currentPattern in *. cbn [pattern isActive sessionCount timeLeft snd] in *.
    split; [exact Hp|]. split; [exact Ha|]. split; [exact Hc|].
    intros Hle. apply Ht. lia.
Qed.

(** X14: a click on a pattern button resets the time shown to the
    inhale of the pattern that was selected before the click, not of
    the one just selected; [handleStart] then shows the new pattern's.
    While the exercise runs the buttons do nothing. *)
Theorem pattern_button_shows_old_inhale (key : PatternKey) (st : State) :
  isActive st = false →
  let st' := selectPattern key st in
  pattern st' = key
  ∧ isActive st' = false
  ∧ phase st' = Inhale
  ∧ sessionCount st' = sessionCount st
  ∧ timeLeft st' = inhale (patterns (pattern st))
  ∧ timeLeft (handleStart st') = inhale (patterns key).
Proof.
  intros Hoff st'. unfold st', selectPattern. rewrite Hoff. done.
Qed.

Lemma pattern_button_shows_old_inhale_witness :
  let st' := selectPattern Deep initialState in
  pattern st' = Deep
  ∧ isActive st' = false
  ∧ phase st' = Inhale
  ∧ sessionCount st' = 0%nat
  ∧ timeLeft st' = 4%nat
  ∧ timeLeft (handleStart st') = 5%nat.
Proof.
  apply (pattern_button_shows_old_inhale Deep initialState). reflexivity.
Defined.

End Breathing.

(** * The reminder time *)

Section ReminderTime.

Import ReminderSettings.

Lemma formatTime_table :
  forallb (λ h,
    forallb (λ m,
      match formatTime (twoDigits h +:+ ":" +:+ twoDigits m) with
      | Some s =>
          String.eqb s
            (pretty (if (h mod 12 =? 0)%N then 12%N else (h mod 12)%N)
             +:+ ":" +:+ twoDigits m +:+ " "
             +:+ (if (12 <=? h)%N then "PM" else "AM"))
      | None => false
      end) (N.of_nat <$> seq 0 60)) (N.of_nat <$> seq 0 24) = true.
Proof. vm_compute. reflexivity. Qed.

(** X15: for every time [HH:MM] of the day, [formatTime] gives the
    twelve-hour reading: the hour is between 1 and 12 (midnight and noon
    read 12), the minutes are as written, and hour and AM/PM together
    determine the hour of the day. *)
Theorem formatTime_twelve_hour_clock (h m : N) :
  (h < 24)%N → (m < 60)%N →
  let hour12 := if (h mod 12 =? 0)%N then 12%N else (h mod 12)%N in
  let pm := (12 <=? h)%N in
  formatTime (twoDigits h +:+ ":" +:+ twoDigits m)
  = Some (pretty hour12 +:+ ":" +:+ twoDigits m +:+ " "
          +:+ (if pm then "PM" else "AM"))
  ∧ (1 ≤ hour12 ≤ 12)%N
  ∧ h = (hour12 mod 12 + (if pm then 12 else 0))%N.
Proof.
  intros Hh Hm hour12 pm. split.
  - pose proof formatTime_table as Htable.
    rewrite forallb_forall in Htable.
    assert (In h (N.of_nat <$> seq 0 24)) as Hin.
    { apply in_map_iff. exists (N.to_nat h). split; [lia|].
      apply in_seq. lia. }
    specialize (Htable h Hin). rewrite forallb_forall in Htable.
    assert (In m (N.of_nat <$> seq 0 60)) as Hin'.
    { apply in_map_iff. exists (N.to_nat m). split; [lia|].
      apply in_seq. lia. }
    specialize (Htable m Hin').
    destruct (formatTime _) as [s|]; [|done].
    apply String.eqb_eq in Htable. by rewrite Htable.
  - unfold hour12, pm.
    pose proof (N.div_mod h 12 ltac:(lia)) as Hd.
    pose proof (N.mod_upper_bound h 12 ltac:(lia)) as Hb.
    assert (h / 12 < 2)%N as Hq by (apply N.Div0.div_lt_upper_bound; lia).
    destruct (N.eqb_spec (h mod 12) 0) as [H0|H0];
      destruct (N.leb_spec 12 h) as [H12|H12].
    all: split; [lia|].
    1,2: change (12 mod 12)%N with 0%N; lia.
    all: rewrite (N.mod_small (h mod 12) 12) by lia; lia.
Qed.

Lemma formatTime_twelve_hour_clock_witness :
  formatTime "00:05" = Some "12:05 AM"
  ∧ (1 ≤ 12 ≤ 12)%N
  ∧ 0%N = (12 mod 12 + 0)%N.
Proof.
  apply (formatTime_twelve_hour_clock 0 5); reflexivity.
Defined.

End ReminderTime.

(** * The message field *)

(** X16: whatever is typed or pasted, in whatever order, the field
    holds the most recent text of at most 1000 code units (the empty
    text if there was none), and the count shown is its length. *)
Theorem message_field_holds_last_fitting_text
    (CodeUnit : Type) (events : list (list CodeUnit)) :
  let field :=
    foldl (λ field text, ChatInterface.handleInputChange CodeUnit text field)
      (ChatInterface.initialField CodeUnit) events in
  let fits text := (length text <=? ChatInterface.MAX_CHAR)%nat in
  ChatInterface.inputText CodeUnit field = default [] (last (filter fits events))
  ∧ ChatInterface.charCount CodeUnit field
    = length (ChatInterface.inputText CodeUnit field)
  ∧ (length (ChatInterface.inputText CodeUnit field) ≤ 1000)%nat.
Proof.
  cbv zeta.
  induction events as [|text events IH] using rev_ind.
  { cbn. repeat split. lia. }
  rewrite foldl_app. cbn [foldl].
  set (field := foldl _ _ events) in *.
  rewrite filter_app, filter_cons, filter_nil.
  unfold ChatInterface.handleInputChange.
  case_decide as Hfit.
  - apply Is_true_true in Hfit. rewrite Hfit, last_snoc. cbn.
    repeat split. by apply Nat.leb_le.
  - rewrite app_nil_r.
    destruct (length text <=? ChatInterface.MAX_CHAR)%nat; [by destruct Hfit|].
    exact IH.
Qed.
